(** * Player (src/player/player.js): a shallow embedding

    The file follows the JavaScript module top to bottom: the values the
    module handles, the lodash helpers it calls, the class [Player]
    (constructor, static fields, [getIDParams], [responseMap]) and, for the
    base classes that are imported but live in other modules, the mapping
    engine and the cache they provide. *)

From Stdlib Require Import ZArith.
From stdpp Require Import base option list gmap strings pretty.

Local Open Scope string_scope.
Local Open Scope list_scope.
#[local] Set Warnings "-register-all".

(** ** JavaScript values *)

(** The JSON fragment of JavaScript, plus [undefined], [NaN] and [Date]
    objects.  Numbers are the integers; [NaN] is kept apart because it is the
    one falsy number besides zero.  An object lists its own properties in
    enumeration order. *)
Inductive value : Type :=
| VUndefined
| VNull
| VBool (b : bool)
| VNum (n : Z)
| VNaN
| VStr (s : string)
| VArr (items : list value)
| VObj (fields : list (string * value))
| VDate (arg : value).

Abbreviation obj := (list (string * value)).

(** Induction over values that reaches inside arrays and objects. *)
Fixpoint value_deep_ind (P : value -> Prop)
    (Hundef : P VUndefined) (Hnull : P VNull)
    (Hbool : forall b, P (VBool b)) (Hnum : forall n, P (VNum n))
    (Hnan : P VNaN) (Hstr : forall s, P (VStr s))
    (Harr : forall items, Forall P items -> P (VArr items))
    (Hobj : forall fields, Forall (fun kv => P (snd kv)) fields -> P (VObj fields))
    (Hdate : forall arg, P arg -> P (VDate arg))
    (v : value) {struct v} : P v :=
  match v with
  | VUndefined => Hundef
  | VNull => Hnull
  | VBool b => Hbool b
  | VNum n => Hnum n
  | VNaN => Hnan
  | VStr s => Hstr s
  | VArr items =>
      Harr items
        ((fix go (l : list value) : Forall P l :=
            match l with
            | [] => @List.Forall_nil _ P
            | x :: l' => @List.Forall_cons _ P x l' (value_deep_ind P Hundef Hnull Hbool Hnum Hnan Hstr Harr Hobj Hdate x) (go l')
            end) items)
  | VObj fields =>
      Hobj fields
        ((fix go (l : obj) : Forall (fun kv => P (snd kv)) l :=
            match l with
            | [] => @List.Forall_nil _ _
            | kv :: l' => @List.Forall_cons _ _ kv l' (value_deep_ind P Hundef Hnull Hbool Hnum Hnan Hstr Harr Hobj Hdate (snd kv)) (go l')
            end) fields)
  | VDate arg => Hdate arg (value_deep_ind P Hundef Hnull Hbool Hnum Hnan Hstr Harr Hobj Hdate arg)
  end.

(** Structural equality ([_.isEqual] on this fragment), as a boolean. *)
Fixpoint value_eqb (a b : value) {struct a} : bool :=
  match a, b with
  | VUndefined, VUndefined => true
  | VNull, VNull => true
  | VBool x, VBool y => Bool.eqb x y
  | VNum x, VNum y => Z.eqb x y
  | VNaN, VNaN => true
  | VStr x, VStr y => String.eqb x y
  | VArr xs, VArr ys =>
      (fix go (l : list value) (r : list value) {struct l} : bool :=
         match l, r with
         | [], [] => true
         | x :: l', y :: r' => value_eqb x y && go l' r'
         | _, _ => false
         end) xs ys
  | VObj fs, VObj gs =>
      (fix go (l : obj) (r : obj) {struct l} : bool :=
         match l, r with
         | [], [] => true
         | (k, x) :: l', (k', y) :: r' =>
             String.eqb k k' && value_eqb x y && go l' r'
         | _, _ => false
         end) fs gs
  | VDate x, VDate y => value_eqb x y
  | _, _ => false
  end.

(** What JavaScript's [if (v)] and [v ? _ : _] test. *)
Definition truthy (v : value) : bool :=
  match v with
  | VUndefined | VNull | VNaN => false
  | VBool b => b
  | VNum n => negb (Z.eqb n 0)
  | VStr s => negb (String.eqb s "")
  | VArr _ | VObj _ | VDate _ => true
  end.

(** [v == null]: the two absent values. *)
Definition nullish (v : value) : bool :=
  match v with
  | VUndefined | VNull => true
  | _ => false
  end.

(** Own property [k] of an object, if it has one. *)
Fixpoint ownProperty (o : obj) (k : string) : option value :=
  match o with
  | [] => None
  | (k', v) :: rest => if String.eqb k' k then Some v else ownProperty rest k
  end.

(** The read [v[k]] on a value that is not nullish.  Only plain objects carry
    named data properties in this fragment; a missing property reads as
    [undefined]. *)
Definition member (v : value) (k : string) : value :=
  match v with
  | VObj fields => default VUndefined (ownProperty fields k)
  | _ => VUndefined
  end.

(** The write [o[k] = v]: an existing property keeps its place, a new one
    goes last. *)
Fixpoint setProperty (o : obj) (k : string) (v : value) : obj :=
  match o with
  | [] => [(k, v)]
  | (k', v') :: rest =>
      if String.eqb k' k then (k', v) :: rest else (k', v') :: setProperty rest k v
  end.

(** [Object.assign(target, source)] on own properties. *)
Definition assign (target source : obj) : obj :=
  fold_left (fun t kv => setProperty t (fst kv) (snd kv)) source target.

(** No property name occurs twice, as in every JavaScript object. *)
Definition wellFormed (o : obj) : Prop := NoDup (map fst o).

(** ** Completions: a call returns normally or throws *)

Inductive completion (A : Type) : Type :=
| Normal (a : A)
| Throw (e : value).
Arguments Normal {A} a.
Arguments Throw {A} e.

#[global] Instance completion_ret : MRet completion := @Normal.

#[global] Instance completion_bind : MBind completion :=
  fun A B k c =>
    match c with
    | Normal a => k a
    | Throw e => Throw e
    end.

(** The [TypeError] raised by a property read on [undefined] or [null]. *)
Definition TypeError : value := VStr "TypeError".

(** The read [v.k] as the engine executes it. *)
Definition readProperty (v : value) (k : string) : completion value :=
  if nullish v then Throw TypeError else Normal (member v k).

(** ** lodash *)

(** The helpers of lodash that player.js calls.  lodash is a dependency, not
    part of the repository.  What it does with a path that is a string, an
    array or an object (the path grammar and the reads along the path) and
    with the numeric value of a non-number is taken as given by two functions,
    [deepGet] and [coerce]; the rest is lodash's code on the values of this
    fragment. *)
Module Lodash.
Section Helpers.

(** [_.get(object, path)] for a path that is a string, an array, an object
    or a number outside the safe integers, on an object that is not
    nullish. *)
Variable deepGet : value -> value -> value.

(** [toNumber] past its first line: symbols, objects through [valueOf],
    strings through trimming and unary plus. *)
Variable coerce : value -> value.

(** The largest length and the largest integer that prints digit by digit:
    [Number.MAX_SAFE_INTEGER]. *)
Definition MAX_SAFE_INTEGER : Z := 9007199254740991.

(** The one key of a path that is a primitive other than a string: lodash's
    [isKey] accepts such a path as a single key, and [toKey] writes the
    primitive out ([value + '']). *)
Definition primitiveKey (path : value) : option string :=
  match path with
  | VUndefined => Some "undefined"
  | VNull => Some "null"
  | VBool b => Some (if b then "true" else "false")
  | VNaN => Some "NaN"
  | VNum n => if (Z.abs n <=? MAX_SAFE_INTEGER)%Z then Some (pretty n) else None
  | VStr _ | VArr _ | VObj _ | VDate _ => None
  end.

(** The read [object[key]] for the key of a primitive path, on an object
    that is not nullish: an own property of a plain object, an element of an
    array or a character of a string when the path is an index in range, and
    [undefined] otherwise (no prototype has a property of such a name). *)
Definition element (object path : value) (key : string) : value :=
  match object, path with
  | VObj _, _ => member object key
  | VArr items, VNum n =>
      if (0 <=? n)%Z then default VUndefined (items !! Z.to_nat n) else VUndefined
  | VStr s, VNum n =>
      if (0 <=? n)%Z then
        match String.get (Z.to_nat n) s with
        | Some c => VStr (String c "")
        | None => VUndefined
        end
      else VUndefined
  | _, _ => VUndefined
  end.

(** [_.get(object, path)]: [undefined] on a nullish object; for a path of
    one key the read of that key. *)
Definition get (object path : value) : value :=
  if nullish object then VUndefined
  else match primitiveKey path with
       | Some key => element object path key
       | None => deepGet object path
       end.

(** [_.toNumber(value)]: a number is returned as it is. *)
Definition toNumber (v : value) : value :=
  match v with
  | VNum _ | VNaN => v
  | _ => coerce v
  end.

(** [isLength(value)]: a non-negative safe integer. *)
Definition isLength (v : value) : option nat :=
  match v with
  | VNum n => if ((0 <=? n) && (n <=? MAX_SAFE_INTEGER))%Z then Some (Z.to_nat n) else None
  | _ => None
  end.

(** [_.map(collection, iteratee)] for an iteratee of one argument: arrays
    element by element; strings character by character; an object with a
    [length] that is a length index by index from 0, a missing index read as
    [undefined]; any other object value by value; anything else (among them
    [undefined] and [null]) gives the empty array. *)
Definition map (collection : value) (iteratee : value -> value) : value :=
  VArr match collection with
       | VArr items => List.map iteratee items
       | VStr s => List.map (fun c => iteratee (VStr (String c ""))) (String.list_ascii_of_string s)
       | VObj fields =>
           match isLength (member collection "length") with
           | Some n => List.map (fun i : nat => iteratee (member collection (pretty i))) (seq 0 n)
           | None => List.map (fun kv => iteratee (snd kv)) fields
           end
       | _ => []
       end.

End Helpers.
End Lodash.

(** ** The heap, the cache and the class object *)

Abbreviation loc := positive.

(** What the cache layer and the class share between calls: the objects built
    so far, the cache of the entity type (identity key to object), the static
    data properties of the class object, and how often the schema mapper has
    run. *)
Record world : Type := World {
  heap : gmap loc obj;
  store : list (value * loc);
  statics : obj;
  mapperRuns : nat
}.

(** The property [k] of the object at [l]. *)
Definition fieldOf (h : gmap loc obj) (l : loc) (k : string) : value :=
  match h !! l with
  | Some o => member (VObj o) k
  | None => VUndefined
  end.

(** The assignment [l.k = v]. *)
Definition writeField (h : gmap loc obj) (l : loc) (k : string) (v : value) : gmap loc obj :=
  match h !! l with
  | Some o => <[l := setProperty o k v]> h
  | None => h
  end.

(** Modelled from the spec: the store of section 4.4 maps identity keys to
    objects; keys are compared by value, component by component. *)
Fixpoint storeLookup (key : value) (s : list (value * loc)) : option loc :=
  match s with
  | [] => None
  | (k, l) :: rest => if value_eqb k key then Some l else storeLookup key rest
  end.

(** An argument the caller may leave out or pass as [null]; objects are
    passed by reference. *)
Inductive argument : Type :=
| Absent
| Null
| Ref (l : loc).

(** ** A concrete scenario

    The collaborators, tables and documents used to run the definitions on
    concrete inputs. *)
Module Scenario.

(** A stat collaborator that answers with the season it was given. *)
Definition parsePlayerStats (args : value) : completion value :=
  Normal (VArr [member args "seasonId"]).

(** [TEAM_TABLE = {3: 'Example Team'}]. *)
Definition teams : obj := [("3", VStr "Example Team")].

Definition abbreviations : obj := [("3", VStr "EX")].

Definition positions : obj := [("2", VStr "RB"); ("4", VStr "WR")].

(** String paths of the scenario are plain names: the property of that
    name; other paths lead nowhere. *)
Definition deepGet (object path : value) : value :=
  match path with
  | VStr s => member object s
  | _ => VUndefined
  end.

(** Coercion of the non-numbers of the scenario. *)
Definition coerce (v : value) : value :=
  match v with
  | VStr "12" => VNum 12
  | VStr "" | VNull | VBool false => VNum 0
  | VBool true => VNum 1
  | _ => VNaN
  end.

Definition knownContainers : list string := ["ownership"].

(** A base constructor that creates an empty instance. *)
Definition super (h : gmap loc obj) (options : argument) : completion (loc * gmap loc obj) :=
  let this := fresh (dom h) in Normal (this, <[this := []]> h).

(** [{ id: 7, seasonId: 2023, scoringPeriodId: 1 }]. *)
Definition identified : obj :=
  [("id", VNum 7); ("seasonId", VNum 2023); ("scoringPeriodId", VNum 1)].

(** The same identity in another order, with another parameter beside. *)
Definition identifiedAgain : obj :=
  [("scoringPeriodId", VNum 1); ("cached", VBool false); ("seasonId", VNum 2023);
   ("id", VNum 7)].

(** [{ id: 0, seasonId: 2023, scoringPeriodId: 1 }]. *)
Definition zeroId : obj :=
  [("id", VNum 0); ("seasonId", VNum 2023); ("scoringPeriodId", VNum 1)].

(** [{ id: 7, seasonId: 2023 }]: no scoring period. *)
Definition withoutPeriod : obj := [("id", VNum 7); ("seasonId", VNum 2023)].

(** [{ id: 7, jersey: 0 }]. *)
Definition jerseyZero : obj := [("id", VNum 7); ("jersey", VNum 0)].

(** [{ id: 7, jersey: "12" }]. *)
Definition jerseyTwelve : obj := [("id", VNum 7); ("jersey", VStr "12")].

(** [{ id: 7, proTeamId: 3 }]. *)
Definition rostered : obj := [("id", VNum 7); ("proTeamId", VNum 3)].

(** A document with a nested container. *)
Definition nested : obj :=
  [("id", VNum 7); ("ownership", VObj [("percentOwned", VNum 42)])].

(** A document whose nested container has an id and eligible slots of its
    own: [{ id: 7, ownership: { id: 99, eligibleSlots: [2] } }]. *)
Definition shadowed : obj :=
  [("id", VNum 7); ("ownership", VObj [("id", VNum 99); ("eligibleSlots", VArr [VNum 2])])].

(** The class object with the static properties the class body declares, an
    empty heap and an empty cache. *)
Definition start : world :=
  World ∅ [] [("displayName", VStr "Player"); ("flattenResponse", VBool true)] 0.

End Scenario.

(** ** The mapping engine, the class and the cache *)

Section Player.

(** *** What player.js imports *)

(** [parsePlayerStats] of ../player-stats/player-stats: it receives one
    argument object and returns a value or throws. *)
Variable parsePlayerStats : value -> completion value.

(** The three tables of ../constants.js. *)
Variable nflTeamIdToNFLTeam : obj.
Variable nflTeamIdToNFLTeamAbbreviation : obj.
Variable slotCategoryIdToPositionMap : obj.

(** lodash's reads along string and array paths, and its numeric coercion
    (see [Lodash]). *)
Variable deepGet : value -> value -> value.
Variable coerce : value -> value.

(** The names of the nested containers that flatten mode merges (the
    flattening helper is in another module; the spec calls them the known
    containers and lists none). *)
Variable knownContainers : list string.

(** *** Field resolver and schema mapper *)

(** Modelled from the spec: the transform of a structured field spec (the
    base-object module that calls it is outside player.js).  It receives the raw
    value at the source key, the result mapped so far, the document and the
    constructor parameters, and returns the field's value or throws. *)
Definition transform : Type := value -> obj -> obj -> value -> completion value.

(** Modelled from the spec: a field spec is a bare source-field name or a
    structured spec with an optional source key, transform and default. *)
Inductive fieldSpec : Type :=
| Direct (source : string)
| Structured (key : option string) (manualParse : option transform)
    (defaultValue : option value).

(** Modelled from the spec: the Field Resolver of section 4.1.  The absent
    value is [undefined]. *)
Definition resolve (target : string) (spec : fieldSpec) (rawDocument partialResult : obj)
    (constructorParams : value) : completion value :=
  match spec with
  | Direct source => mret (member (VObj rawDocument) source)
  | Structured key manualParse defaultValue =>
      let sourceKey := default target key in
      let rawValue := member (VObj rawDocument) sourceKey in
      match manualParse with
      | Some parse => parse rawValue partialResult rawDocument constructorParams
      | None =>
          mret match rawValue, defaultValue with
               | VUndefined, Some d => d
               | _, _ => rawValue
               end
      end
  end.

(** Modelled from the spec: "unless the resolver returns absent, set
    [result[targetField]]". *)
Definition setUnlessAbsent (partialResult : obj) (target : string) (v : value) : obj :=
  match v with
  | VUndefined => partialResult
  | _ => setProperty partialResult target v
  end.

(** Modelled from the spec: steps 2 to 4 of the Schema Mapper of section 4.2:
    the entries in declared order, each resolved against the result so far and
    set unless absent; a throwing transform aborts the whole mapping. *)
Fixpoint mapFields (entries : list (string * fieldSpec)) (document : obj)
    (constructorParams : value) (partialResult : obj) : completion obj :=
  match entries with
  | [] => mret partialResult
  | (target, spec) :: rest =>
      v ← resolve target spec document partialResult constructorParams;
      mapFields rest document constructorParams (setUnlessAbsent partialResult target v)
  end.

(** What a field of the result holds after [v] was resolved for it: nothing
    when [v] is absent. *)
Definition presentValue (v : value) : option value :=
  match v with
  | VUndefined => None
  | _ => Some v
  end.

(** The object that setting the given fields in order, absent ones left out,
    builds from the empty object. *)
Definition populate (fields : obj) : obj :=
  fold_left (fun o kv => setUnlessAbsent o (fst kv) (snd kv)) fields [].

(** The fields that are not absent, in the order given. *)
Definition keptFields (fields : obj) : obj :=
  flat_map (fun kv => match snd kv with
                      | VUndefined => []
                      | _ => [kv]
                      end) fields.

(** Modelled from the spec: merging one known container of the raw document
    into the working copy, so that its fields are addressable at top level. *)
Definition mergeContainer (rawDocument working : obj) (container : string) : obj :=
  match ownProperty rawDocument container with
  | Some (VObj fields) => assign working fields
  | _ => working
  end.

(** Modelled from the spec: step 1 of the Schema Mapper: one level of known
    containers merged into a working copy.  The containers are read from the
    raw document, so the merge does not recurse into grandchildren. *)
Definition flattenDocument (rawDocument : obj) : obj :=
  fold_left (mergeContainer rawDocument) knownContainers rawDocument.

(** Modelled from the spec: the document the field loop reads. *)
Definition workingDocument (flatten : bool) (rawDocument : obj) : obj :=
  if flatten then flattenDocument rawDocument else rawDocument.

(** Flattening leaves a key of the raw document alone: flatten mode is off,
    or no known container of the raw document has a field of that name. *)
Definition flattenKeeps (flatten : bool) (rawDocument : obj) (key : string) : Prop :=
  flatten = false
  \/ forall container fields,
       container ∈ knownContainers ->
       ownProperty rawDocument container = Some (VObj fields) ->
       ownProperty fields key = None.

(** Modelled from the spec: the Schema Mapper of section 4.2.  A raw document
    that is not an object is a fatal construction error (section 7). *)
Definition mapDocument (entries : list (string * fieldSpec)) (rawDocument : value)
    (constructorParams : value) (flatten : bool) : completion obj :=
  match rawDocument with
  | VObj raw => mapFields entries (workingDocument flatten raw) constructorParams []
  | _ => Throw TypeError
  end.

(** *** class Player *)

(** [static displayName = 'Player']. *)
Definition displayName : string := "Player".

(** [static flattenResponse = true]. *)
Definition flattenResponse : bool := true.

(** The static data properties the class body declares. *)
Definition declaredStatics : obj :=
  [("displayName", VStr displayName); ("flattenResponse", VBool flattenResponse)].

(** JavaScript's [a && b]: [a] when it is falsy, else [b]. *)
Definition andAlso (a b : completion value) : completion value :=
  x ← a; if truthy x then b else mret x.

(** [static getIDParams(params = {})]. *)
Definition getIDParams (params : value) : completion value :=
  let params := match params with VUndefined => VObj [] | _ => params end in
  test ← andAlso (andAlso (readProperty params "id") (readProperty params "seasonId"))
                 (readProperty params "scoringPeriodId");
  if truthy test then
    id ← readProperty params "id";
    seasonId ← readProperty params "seasonId";
    scoringPeriodId ← readProperty params "scoringPeriodId";
    mret (VObj [("id", id); ("seasonId", seasonId); ("scoringPeriodId", scoringPeriodId)])
  else mret VUndefined.

(** The three declared identity parameters of an object, in declared order. *)
Definition identityTriple (params : obj) : value * value * value :=
  (member (VObj params) "id", member (VObj params) "seasonId",
   member (VObj params) "scoringPeriodId").

(** The key [getIDParams] builds from a triple. *)
Definition identityKey (triple : value * value * value) : value :=
  let '(id, seasonId, scoringPeriodId) := triple in
  VObj [("id", id); ("seasonId", seasonId); ("scoringPeriodId", scoringPeriodId)].

(** Every component of the triple passes the [&&] test. *)
Definition allTruthy (triple : value * value * value) : bool :=
  let '(id, seasonId, scoringPeriodId) := triple in
  truthy id && truthy seasonId && truthy scoringPeriodId.

(** Every component of the triple is present (not [undefined], not [null]). *)
Definition allPresent (triple : value * value * value) : bool :=
  let '(id, seasonId, scoringPeriodId) := triple in
  negb (nullish id) && negb (nullish seasonId) && negb (nullish scoringPeriodId).

(** A response-map entry of the shape [{ key, manualParse }]. *)
Definition parsed (key : string) (manualParse : transform) : fieldSpec :=
  Structured (Some key) (Some manualParse) None.

(** [jerseyNumber.manualParse]. *)
Definition jerseyNumber_manualParse : transform :=
  fun responseData _ _ _ =>
    mret (if truthy responseData then Lodash.toNumber coerce responseData else VUndefined).

(** [proTeam.manualParse]. *)
Definition proTeam_manualParse : transform :=
  fun responseData _ _ _ => mret (Lodash.get deepGet (VObj nflTeamIdToNFLTeam) responseData).

(** [proTeamAbbreviation.manualParse]. *)
Definition proTeamAbbreviation_manualParse : transform :=
  fun responseData _ _ _ =>
    mret (Lodash.get deepGet (VObj nflTeamIdToNFLTeamAbbreviation) responseData).

(** [defaultPosition.manualParse]. *)
Definition defaultPosition_manualParse : transform :=
  fun responseData _ _ _ =>
    mret (Lodash.get deepGet (VObj slotCategoryIdToPositionMap) responseData).

(** The object literal [totalPoints.manualParse] passes to [parsePlayerStats].
    [this] is the [this] of the static initializer, the class object: the
    arrow function reads its properties when it is called. *)
Definition totalPoints_arguments (this : obj) (responseData constructorParams : value) : value :=
  VObj [("responseData", responseData);
        ("constructorParams", constructorParams);
        ("usesPoints", VBool true);
        ("scoringPeriodId", member (VObj this) "scoringPeriodId");
        ("seasonId", member (VObj this) "seasonId");
        ("statKey", VStr "appliedTotal");
        ("statSourceId", VNum 0);
        ("statSplitTypeId", VNum 1)].

(** [totalPoints.manualParse]. *)
Definition totalPoints_manualParse (this : obj) : transform :=
  fun responseData data rawData constructorParams =>
    parsePlayerStats (totalPoints_arguments this responseData constructorParams).

(** [eligiblePositions.manualParse]. *)
Definition eligiblePositions_manualParse : transform :=
  fun responseData _ _ _ =>
    mret (Lodash.map responseData
            (fun posId => Lodash.get deepGet (VObj slotCategoryIdToPositionMap) posId)).

(** [acquiredDate.manualParse]. *)
Definition acquiredDate_manualParse : transform :=
  fun responseData _ _ _ =>
    mret (if truthy responseData then VDate responseData else VUndefined).

(** [static responseMap], in declared order. *)
Definition responseMap (this : obj) : list (string * fieldSpec) :=
  [("id", Direct "id");
   ("firstName", Direct "firstName");
   ("fullName", Direct "fullName");
   ("lastName", Direct "lastName");
   ("jerseyNumber", parsed "jersey" jerseyNumber_manualParse);
   ("proTeam", parsed "proTeamId" proTeam_manualParse);
   ("proTeamAbbreviation", parsed "proTeamId" proTeamAbbreviation_manualParse);
   ("defaultPosition", parsed "defaultPositionId" defaultPosition_manualParse);
   ("totalPoints", parsed "stats" (totalPoints_manualParse this));
   ("eligiblePositions", parsed "eligibleSlots" eligiblePositions_manualParse);
   ("averageDraftPosition", Direct "averageDraftPosition");
   ("auctionValueAverage", Direct "auctionValueAverage");
   ("locked", Direct "lineupLocked");
   ("percentChange", Direct "percentChange");
   ("percentStarted", Direct "percentStarted");
   ("percentOwned", Direct "percentOwned");
   ("acquiredDate", parsed "acquisitionDate" acquiredDate_manualParse);
   ("availabilityStatus", Direct "status");
   ("isDroppable", Direct "droppable");
   ("isInjured", Direct "injured");
   ("injuryStatus", Direct "injuryStatus");
   ("outlooksByWeek", Direct "outlooksByWeek")].

(** The value each target of the response map is resolved to on a document,
    the total points being what [parsePlayerStats] returned. *)
Definition resolvedFields (document : obj) (totalPoints : value) : obj :=
  let raw := member (VObj document) in
  [("id", raw "id");
   ("firstName", raw "firstName");
   ("fullName", raw "fullName");
   ("lastName", raw "lastName");
   ("jerseyNumber",
     if truthy (raw "jersey") then Lodash.toNumber coerce (raw "jersey") else VUndefined);
   ("proTeam", Lodash.get deepGet (VObj nflTeamIdToNFLTeam) (raw "proTeamId"));
   ("proTeamAbbreviation",
     Lodash.get deepGet (VObj nflTeamIdToNFLTeamAbbreviation) (raw "proTeamId"));
   ("defaultPosition",
     Lodash.get deepGet (VObj slotCategoryIdToPositionMap) (raw "defaultPositionId"));
   ("totalPoints", totalPoints);
   ("eligiblePositions",
     Lodash.map (raw "eligibleSlots")
       (fun posId => Lodash.get deepGet (VObj slotCategoryIdToPositionMap) posId));
   ("averageDraftPosition", raw "averageDraftPosition");
   ("auctionValueAverage", raw "auctionValueAverage");
   ("locked", raw "lineupLocked");
   ("percentChange", raw "percentChange");
   ("percentStarted", raw "percentStarted");
   ("percentOwned", raw "percentOwned");
   ("acquiredDate",
     if truthy (raw "acquisitionDate") then VDate (raw "acquisitionDate") else VUndefined);
   ("availabilityStatus", raw "status");
   ("isDroppable", raw "droppable");
   ("isInjured", raw "injured");
   ("injuryStatus", raw "injuryStatus");
   ("outlooksByWeek", raw "outlooksByWeek")].

(** Mapping a raw document with Player's response map and flatten flag. *)
Definition mapPlayer (this : obj) (rawDocument constructorParams : value) : completion obj :=
  mapDocument (responseMap this) rawDocument constructorParams flattenResponse.

(** [constructor(options = {})] reaches the constructor of
    BaseCacheableObject through [super(options)]; that class is imported
    from ../base-classes.  It is given the heap and the argument and returns
    the new instance and the heap after, or throws. *)
Variable super : gmap loc obj -> argument -> completion (loc * gmap loc obj).

(** The read [options.k] on the constructor's argument. *)
Definition readOption (h : gmap loc obj) (options : argument) (k : string) : completion value :=
  match options with
  | Ref o => mret (fieldOf h o k)
  | Absent | Null => Throw TypeError
  end.

(** [constructor(options = {})]: the default is a new empty object. *)
Definition constructor (h : gmap loc obj) (options : argument) : completion (loc * gmap loc obj) :=
  let '(options, h) :=
    match options with
    | Absent => let o := fresh (dom h) in (Ref o, <[o := []]> h)
    | _ => (options, h)
    end in
  '(this, h) ← super h options;
  seasonId ← readOption h options "seasonId";
  let h := writeField h this "seasonId" seasonId in
  scoringPeriodId ← readOption h options "scoringPeriodId";
  mret (this, writeField h this "scoringPeriodId" scoringPeriodId).

(** What [options.k] holds for the caller: [undefined] when no options were
    passed. *)
Definition optionValue (h : gmap loc obj) (options : argument) (k : string) : value :=
  match options with
  | Ref o => fieldOf h o k
  | Absent | Null => VUndefined
  end.

(** What Player's constructor needs of the base constructor: it returns
    normally, the instance it returns is a new object, and the objects the
    caller holds are as they were. *)
Definition superConstructs : Prop :=
  forall (h : gmap loc obj) (options : argument),
    exists this h',
      super h options = Normal (this, h')
      /\ h !! this = None
      /\ is_Some (h' !! this)
      /\ forall l, is_Some (h !! l) -> h' !! l = h !! l.

(** *** Cacheable object base *)

(** Modelled from the spec: one run of the Schema Mapper for a Player (the
    base classes are imported, not part of player.js): the run is counted and
    its result is a new object. *)
Definition runMapper (w : world) (data constructorParams : value) : completion (loc * world) :=
  fields ← mapPlayer (statics w) data constructorParams;
  let l := fresh (dom (heap w)) in
  mret (l, World (<[l := fields]> (heap w)) (store w) (statics w) (S (mapperRuns w))).

(** Modelled from the spec: [getOrCreate] of section 4.4 for Player, the
    identity key being what [getIDParams] returns and [undefined] standing
    for no key.  Without a key the mapper runs and the store is not touched;
    a hit returns the stored object, refreshed in place when asked; a miss
    runs the mapper and stores the result under the key. *)
Definition getOrCreate (w : world) (data constructorParams : value) (refresh : bool)
    : completion (loc * world) :=
  key ← getIDParams constructorParams;
  match key with
  | VUndefined => runMapper w data constructorParams
  | _ =>
      match storeLookup key (store w) with
      | Some l =>
          if refresh then
            fields ← mapPlayer (statics w) data constructorParams;
            mret (l, World (<[l := fields]> (heap w)) (store w) (statics w) (S (mapperRuns w)))
          else mret (l, w)
      | None =>
          '(l, w') ← runMapper w data constructorParams;
          mret (l, World (heap w') ((key, l) :: store w') (statics w') (mapperRuns w'))
      end
  end.


(** ** Properties of objects *)

Lemma value_eqb_refl (v : value) : value_eqb v v = true.
Proof.
  induction v using value_deep_ind; simpl; auto.
  - apply Bool.eqb_reflx.
  - apply Z.eqb_refl.
  - apply String.eqb_refl.
  - induction H as [|x items Hx _ IH]; [reflexivity|].
    rewrite Hx. exact IH.
  - induction H as [|[k x] fields Hx _ IH]; [reflexivity|].
    simpl in Hx. rewrite String.eqb_refl, Hx. exact IH.
Qed.

Lemma ownProperty_setProperty_eq (o : obj) (k : string) (v : value) :
  ownProperty (setProperty o k v) k = Some v.
Proof.
  induction o as [|[k' v'] o IH]; simpl.
  - now rewrite String.eqb_refl.
  - destruct (String.eqb k' k) eqn:E; simpl; rewrite E; [reflexivity | exact IH].
Qed.

Lemma ownProperty_setProperty_ne (o : obj) (k k' : string) (v : value) :
  k <> k' -> ownProperty (setProperty o k v) k' = ownProperty o k'.
Proof.
  intros Hne. induction o as [|[k0 v0] o IH]; simpl.
  - destruct (String.eqb k k') eqn:E; [|reflexivity].
    apply String.eqb_eq in E. contradiction.
  - destruct (String.eqb k0 k) eqn:E; simpl.
    + apply String.eqb_eq in E. subst k0.
      destruct (String.eqb k k') eqn:E'; [|reflexivity].
      apply String.eqb_eq in E'. contradiction.
    + now rewrite IH.
Qed.

Lemma ownProperty_absent (o : obj) (k : string) :
  k ∉ map fst o -> ownProperty o k = None.
Proof.
  induction o as [|[k' v'] o IH]; simpl; [reflexivity|].
  intros Hnot. destruct (String.eqb k' k) eqn:E.
  - apply String.eqb_eq in E. subst k'. exfalso. apply Hnot. left.
  - apply IH. intros Hin. apply Hnot. now right.
Qed.

Lemma ownProperty_some_elem (o : obj) (k : string) (v : value) :
  ownProperty o k = Some v -> k ∈ map fst o.
Proof.
  induction o as [|[k' v'] o IH]; simpl; [discriminate|].
  destruct (String.eqb k' k) eqn:E.
  - apply String.eqb_eq in E. subst k'. intros _. left.
  - intros H. right. now apply IH.
Qed.

(** A property the source does not define is left as the target has it. *)
Lemma ownProperty_assign_other (source target : obj) (k : string) :
  ownProperty source k = None -> ownProperty (assign target source) k = ownProperty target k.
Proof.
  unfold assign. revert target.
  induction source as [|[k' v'] source IH]; intros target; simpl; [reflexivity|].
  destruct (String.eqb k' k) eqn:E; [discriminate|].
  intros Hnone. rewrite IH by exact Hnone.
  apply ownProperty_setProperty_ne. intros ->. now rewrite String.eqb_refl in E.
Qed.

(** A property of the source is a property of the merged object. *)
Lemma ownProperty_assign (source target : obj) (k : string) (v : value) :
  wellFormed source -> ownProperty source k = Some v ->
  ownProperty (assign target source) k = Some v.
Proof.
  unfold wellFormed. revert target.
  induction source as [|[k' v'] source IH]; intros target Hwf; simpl; [discriminate|].
  apply NoDup_cons in Hwf as [Hnot Hwf]. simpl in Hnot.
  destruct (String.eqb k' k) eqn:E.
  - apply String.eqb_eq in E. subst k'. intros [= ->].
    change (ownProperty (assign (setProperty target k v) source) k = Some v).
    rewrite ownProperty_assign_other by now apply ownProperty_absent.
    apply ownProperty_setProperty_eq.
  - intros Hsome. now apply (IH (setProperty target k' v')).
Qed.

Lemma ownProperty_setUnlessAbsent_ne (o : obj) (k k' : string) (v : value) :
  k <> k' -> ownProperty (setUnlessAbsent o k v) k' = ownProperty o k'.
Proof.
  intros Hne. destruct v; simpl; try reflexivity;
    now apply ownProperty_setProperty_ne.
Qed.

Lemma ownProperty_setUnlessAbsent_eq (o : obj) (k : string) (v : value) :
  ownProperty o k = None -> ownProperty (setUnlessAbsent o k v) k = presentValue v.
Proof.
  intros Hnone. destruct v; simpl; try exact Hnone;
    apply ownProperty_setProperty_eq.
Qed.

(** Setting fields of distinct names in order: each name holds what was set
    for it, unless that was absent. *)
Lemma ownProperty_fold_setUnlessAbsent (fields acc : obj) (k : string) :
  NoDup (map fst fields) ->
  (forall k', k' ∈ map fst fields -> ownProperty acc k' = None) ->
  ownProperty (fold_left (fun o kv => setUnlessAbsent o (fst kv) (snd kv)) fields acc) k =
  match ownProperty fields k with
  | Some v => presentValue v
  | None => ownProperty acc k
  end.
Proof.
  revert acc. induction fields as [|[k0 v0] fields IH]; intros acc Hnd Hacc; simpl.
  - reflexivity.
  - simpl in Hnd. apply NoDup_cons in Hnd as [Hnot Hnd].
    rewrite IH; [| exact Hnd |].
    + destruct (String.eqb k0 k) eqn:E.
      * apply String.eqb_eq in E. subst k0.
        rewrite (ownProperty_absent fields k Hnot).
        apply ownProperty_setUnlessAbsent_eq. apply Hacc. left.
      * destruct (ownProperty fields k); [reflexivity|].
        apply ownProperty_setUnlessAbsent_ne. intros ->.
        now rewrite String.eqb_refl in E.
    + intros k' Hin. rewrite ownProperty_setUnlessAbsent_ne.
      * apply Hacc. now right.
      * intros ->. contradiction.
Qed.

Lemma ownProperty_populate (fields : obj) (k : string) :
  NoDup (map fst fields) ->
  ownProperty (populate fields) k = ownProperty fields k ≫= presentValue.
Proof.
  intros Hnd. unfold populate.
  rewrite ownProperty_fold_setUnlessAbsent; [| exact Hnd | reflexivity].
  now destruct (ownProperty fields k).
Qed.

Lemma member_populate (fields : obj) (k : string) :
  NoDup (map fst fields) ->
  member (VObj (populate fields)) k = member (VObj fields) k.
Proof.
  intros Hnd. simpl. rewrite ownProperty_populate by exact Hnd.
  destruct (ownProperty fields k) as [[]|]; reflexivity.
Qed.

(** ** Player.getIDParams *)

(** What [getIDParams] returns on an object: the key when the three identity
    parameters are truthy, [undefined] otherwise. *)
Lemma getIDParams_object (params : obj) :
  getIDParams (VObj params) =
  Normal (if allTruthy (identityTriple params)
          then identityKey (identityTriple params) else VUndefined).
Proof.
  unfold getIDParams, andAlso, readProperty, allTruthy, identityTriple, identityKey.
  simpl.
  set (id := default VUndefined (ownProperty params "id")).
  set (seasonId := default VUndefined (ownProperty params "seasonId")).
  set (scoringPeriodId := default VUndefined (ownProperty params "scoringPeriodId")).
  destruct (truthy id) eqn:Hid, (truthy seasonId) eqn:Hseason,
    (truthy scoringPeriodId) eqn:Hperiod;
    cbn; rewrite ?Hid, ?Hseason, ?Hperiod; cbn; rewrite ?Hid, ?Hseason, ?Hperiod;
    reflexivity.
Qed.

Lemma identityKey_defined (triple : value * value * value) :
  identityKey triple <> VUndefined.
Proof. destruct triple as [[? ?] ?]. discriminate. Qed.

Lemma allTruthy_allPresent (triple : value * value * value) :
  allTruthy triple = true -> allPresent triple = true.
Proof.
  destruct triple as [[id seasonId] scoringPeriodId]. unfold allTruthy, allPresent.
  intros H. apply andb_prop in H as [H H3]. apply andb_prop in H as [H1 H2].
  destruct id, seasonId, scoringPeriodId; try discriminate; reflexivity.
Qed.

(** C1, as the code has it: on every constructor-parameter object,
    getIDParams returns the key made of exactly id, seasonId and
    scoringPeriodId, in that order, if and only if each of the three is truthy
    (present and none of 0, NaN, the empty string, false, null); when any one
    is missing or falsy it returns undefined; and two objects with equal
    triples get equal keys. *)
Theorem getIDParams_key_iff_truthy (params : obj) :
  (allTruthy (identityTriple params) = true <->
   getIDParams (VObj params) = Normal (identityKey (identityTriple params)))
  /\ (allTruthy (identityTriple params) = false <->
      getIDParams (VObj params) = Normal VUndefined)
  /\ (forall params' : obj,
        identityTriple params' = identityTriple params ->
        getIDParams (VObj params') = getIDParams (VObj params)).
Proof.
  rewrite getIDParams_object.
  pose proof (identityKey_defined (identityTriple params)) as Hdef.
  destruct (allTruthy (identityTriple params)) eqn:Htruthy.
  - split; [| split].
    + split; reflexivity.
    + split; [discriminate | intros [= Hkey]; contradiction].
    + intros params' Heq. rewrite getIDParams_object, Heq, Htruthy. reflexivity.
  - split; [| split].
    + split; [discriminate | intros [= Hkey]; now symmetry in Hkey].
    + split; reflexivity.
    + intros params' Heq. rewrite getIDParams_object, Heq, Htruthy. reflexivity.
Qed.

(** C1 as stated fails: in [{ id: 0, seasonId: 2023, scoringPeriodId: 1 }]
    every identity parameter is present, and getIDParams returns undefined. *)
Lemma getIDParams_present_zero_id_gives_no_key :
  allPresent (identityTriple Scenario.zeroId) = true
  /\ getIDParams (VObj Scenario.zeroId) = Normal VUndefined.
Proof. split; reflexivity. Qed.

(** C9: two constructor-parameter objects that agree on id, seasonId and
    scoringPeriodId get equal results from getIDParams, whatever else they
    hold. *)
Theorem getIDParams_reads_identity_only (params params' : obj) :
  member (VObj params) "id" = member (VObj params') "id" ->
  member (VObj params) "seasonId" = member (VObj params') "seasonId" ->
  member (VObj params) "scoringPeriodId" = member (VObj params') "scoringPeriodId" ->
  getIDParams (VObj params) = getIDParams (VObj params').
Proof.
  intros Hid Hseason Hperiod. rewrite !getIDParams_object.
  unfold identityTriple. now rewrite Hid, Hseason, Hperiod.
Qed.

(** ** Mapping with Player.responseMap *)

(** The field loop on Player's response map, run symbolically: the one call
    that can throw is [parsePlayerStats]; every other entry resolves to the
    value listed in [resolvedFields]. *)
Lemma mapFields_responseMap (this document : obj) (constructorParams : value) :
  mapFields (responseMap this) document constructorParams [] =
  totalPoints ← parsePlayerStats
    (totalPoints_arguments this (member (VObj document) "stats") constructorParams);
  mret (populate (resolvedFields document totalPoints)).
Proof. reflexivity. Qed.

Lemma resolvedFields_NoDup (document : obj) (totalPoints : value) :
  NoDup (map fst (resolvedFields document totalPoints)).
Proof. simpl. apply (bool_decide_unpack (NoDup _)). vm_compute. exact I. Qed.

(** A mapping either completes with the populated object or rethrows what
    [parsePlayerStats] threw. *)
Lemma mapDocument_responseMap (this raw : obj) (constructorParams : value) (flatten : bool) :
  let document := workingDocument flatten raw in
  let stats := parsePlayerStats
    (totalPoints_arguments this (member (VObj document) "stats") constructorParams) in
  mapDocument (responseMap this) (VObj raw) constructorParams flatten =
  match stats with
  | Normal totalPoints => Normal (populate (resolvedFields document totalPoints))
  | Throw e => Throw e
  end.
Proof.
  intros document stats. unfold mapDocument.
  rewrite mapFields_responseMap. fold document. fold stats.
  now destruct stats.
Qed.

(** Each field of a completed mapping holds what its entry resolved to and is
    left out when that was absent. *)
Lemma ownProperty_populate_resolvedFields (document : obj) (totalPoints : value) (k : string) :
  ownProperty (populate (resolvedFields document totalPoints)) k =
  ownProperty (resolvedFields document totalPoints) k ≫= presentValue.
Proof. apply ownProperty_populate, resolvedFields_NoDup. Qed.

(** ** The transforms *)

(** The season and period [totalPoints.manualParse] passes on are those of the
    class object, whatever the constructor parameters are. *)
Lemma totalPoints_arguments_context (this : obj) (responseData constructorParams : value) :
  let args := totalPoints_arguments this responseData constructorParams in
  member args "seasonId" = member (VObj this) "seasonId"
  /\ member args "scoringPeriodId" = member (VObj this) "scoringPeriodId"
  /\ member args "constructorParams" = constructorParams
  /\ member args "responseData" = responseData.
Proof. repeat split. Qed.

(** C2, at [{ id: 7, seasonId: 2023, scoringPeriodId: 1 }]: the transform of
    totalPoints calls parsePlayerStats with the raw stat payload and the
    constructor parameters, but the seasonId and scoringPeriodId it passes are
    read from the class object, which declares neither: both are undefined
    while the constructor parameters say 2023 and 1. *)
Theorem totalPoints_context_read_from_class (responseData : value) (data rawData : obj) :
  let constructorParams := VObj Scenario.identified in
  let args := totalPoints_arguments declaredStatics responseData constructorParams in
  totalPoints_manualParse declaredStatics responseData data rawData constructorParams
    = parsePlayerStats args
  /\ member args "responseData" = responseData
  /\ member args "constructorParams" = constructorParams
  /\ member args "seasonId" = VUndefined
  /\ member args "scoringPeriodId" = VUndefined
  /\ member constructorParams "seasonId" = VNum 2023
  /\ member constructorParams "scoringPeriodId" = VNum 1.
Proof. repeat split. Qed.

(** C6, as the code has it: on every raw document the transform of
    jerseyNumber, applied to the raw jersey value, returns the numeric
    conversion of that value when it is truthy and undefined when it is
    falsy (absent, or one of 0, NaN, the empty string, false, null); for an
    absent value it returns undefined without throwing, and the field is left
    out. *)
Theorem jerseyNumber_manualParse_truthy (document partialResult : obj)
    (constructorParams : value) :
  let jersey := member (VObj document) "jersey" in
  jerseyNumber_manualParse jersey partialResult document constructorParams
    = Normal (if truthy jersey then Lodash.toNumber coerce jersey else VUndefined)
  /\ (ownProperty document "jersey" = None ->
      jerseyNumber_manualParse jersey partialResult document constructorParams
        = Normal VUndefined
      /\ setUnlessAbsent partialResult "jerseyNumber" VUndefined = partialResult).
Proof.
  intros jersey. split; [reflexivity|].
  intros Habsent. unfold jersey. simpl. rewrite Habsent. split; reflexivity.
Qed.

(** ** Flatten mode *)

(** Containers that do not define a key leave it as it is. *)
Lemma ownProperty_merge_others (raw : obj) (key : string) (containers : list string)
    (working : obj) :
  (forall c fields, c ∈ containers -> ownProperty raw c = Some (VObj fields) ->
                    ownProperty fields key = None) ->
  ownProperty (fold_left (mergeContainer raw) containers working) key
  = ownProperty working key.
Proof.
  revert working. induction containers as [|c containers IH]; intros working Hothers;
    simpl; [reflexivity|].
  rewrite IH.
  - unfold mergeContainer.
    destruct (ownProperty raw c) as [[| | | | | | |fields|]|] eqn:Hc; try reflexivity.
    apply ownProperty_assign_other. apply (Hothers c); [left | exact Hc].
  - intros c' fields Hin. apply Hothers. now right.
Qed.

(** C7: Player declares flatten mode; and for every raw document holding a
    nested container, after merging that container's fields to top level a
    field whose source key names a field of the container is resolved, and
    mapped, to the value read directly from the nested container.  The same
    holds for the whole flattening step when no known container merged later
    defines that key as well. *)
Theorem flatten_then_map_reads_nested (raw fields partialResult : obj)
    (container key target : string) (v constructorParams : value) :
  ownProperty raw container = Some (VObj fields) ->
  wellFormed fields ->
  ownProperty fields key = Some v ->
  let merged := mergeContainer raw raw container in
  let nestedValue := member (member (VObj raw) container) key in
  flattenResponse = true
  /\ nestedValue = v
  /\ resolve target (Direct key) merged partialResult constructorParams = Normal nestedValue
  /\ resolve target (Structured (Some key) None None) merged partialResult constructorParams
     = Normal nestedValue
  /\ mapFields [(target, Direct key)] merged constructorParams []
     = Normal (setUnlessAbsent [] target nestedValue)
  /\ (forall earlier later,
        knownContainers = earlier ++ container :: later ->
        (forall c others, c ∈ later -> ownProperty raw c = Some (VObj others) ->
                          ownProperty others key = None) ->
        member (VObj (workingDocument flattenResponse raw)) key = nestedValue).
Proof.
  intros Hcontainer Hwf Hkey merged nestedValue.
  assert (Hnested : nestedValue = v).
  { unfold nestedValue. simpl. rewrite Hcontainer. simpl. now rewrite Hkey. }
  assert (Hmerged : ownProperty merged key = Some v).
  { unfold merged, mergeContainer. rewrite Hcontainer.
    exact (ownProperty_assign fields raw key v Hwf Hkey). }
  rewrite Hnested.
  split; [reflexivity|]. split; [reflexivity|].
  split; [| split; [| split]].
  - simpl. now rewrite Hmerged.
  - simpl. rewrite Hmerged. now destruct v.
  - simpl. now rewrite Hmerged.
  - intros earlier later Hknown Hlater.
    unfold workingDocument, flattenResponse, flattenDocument.
    rewrite Hknown, fold_left_app. cbn [fold_left member].
    rewrite (ownProperty_merge_others raw key later _ Hlater).
    unfold mergeContainer at 1. rewrite Hcontainer.
    now rewrite (ownProperty_assign fields _ key v Hwf Hkey).
Qed.

(** ** The document the field loop reads *)

(** Where flattening leaves a key alone, the field loop reads the raw
    document's own value. *)
Lemma workingDocument_keeps (flatten : bool) (raw : obj) (key : string) :
  flattenKeeps flatten raw key ->
  ownProperty (workingDocument flatten raw) key = ownProperty raw key.
Proof.
  intros [-> | Hothers]; [reflexivity|].
  destruct flatten; [| reflexivity].
  apply ownProperty_merge_others. exact Hothers.
Qed.

(** A table lookup by a number in the safe range reads the table's own
    property of that number's decimal spelling. *)
Lemma get_number (table : obj) (n : Z) :
  (Z.abs n <= Lodash.MAX_SAFE_INTEGER)%Z ->
  Lodash.get deepGet (VObj table) (VNum n)
  = default VUndefined (ownProperty table (pretty n)).
Proof.
  intros Hsafe. unfold Lodash.get, Lodash.primitiveKey. simpl.
  destruct (Z.leb_spec (Z.abs n) Lodash.MAX_SAFE_INTEGER) as [_|Hgt]; [reflexivity | lia].
Qed.


(** C8, as the code has it: for every raw document, when the source key
    eligibleSlots is absent from the document the field loop reads (in
    Player's flatten mode the raw document with the fields of its known
    nested containers merged to top level; the raw document's own key
    wherever flattening leaves eligibleSlots alone), the mapped
    eligiblePositions is the empty list, present on the result; and when that
    document's eligibleSlots is a list, eligiblePositions is the list of the
    position-table lookups of its elements, in the same order and of the same
    length, a numeric slot being looked up as the table's own property of
    that number.  The mapping can only fail by rethrowing what
    parsePlayerStats threw. *)
Theorem mapDocument_eligiblePositions_flattened (this raw : obj)
    (constructorParams : value) (flatten : bool) :
  let document := workingDocument flatten raw in
  let position := fun posId => Lodash.get deepGet (VObj slotCategoryIdToPositionMap) posId in
  match mapDocument (responseMap this) (VObj raw) constructorParams flatten with
  | Normal result =>
      (ownProperty document "eligibleSlots" = None ->
       ownProperty result "eligiblePositions" = Some (VArr []))
      /\ (forall slots, ownProperty document "eligibleSlots" = Some (VArr slots) ->
          ownProperty result "eligiblePositions" = Some (VArr (List.map position slots))
          /\ length (List.map position slots) = length slots
          /\ (forall i, List.map position slots !! i = position <$> slots !! i)
          /\ (forall i n,
                slots !! i = Some (VNum n) ->
                (Z.abs n <= Lodash.MAX_SAFE_INTEGER)%Z ->
                List.map position slots !! i
                = Some (default VUndefined
                          (ownProperty slotCategoryIdToPositionMap (pretty n)))))
      /\ (flattenKeeps flatten raw "eligibleSlots" ->
          ownProperty document "eligibleSlots" = ownProperty raw "eligibleSlots")
  | Throw e =>
      parsePlayerStats
        (totalPoints_arguments this (member (VObj document) "stats") constructorParams)
      = Throw e
  end.
Proof.
  intros document position.
  rewrite mapDocument_responseMap. fold document.
  destruct (parsePlayerStats _) as [totalPoints|e]; [| reflexivity].
  split; [| split].
  - intros Habsent. rewrite ownProperty_populate_resolvedFields.
    simpl. rewrite Habsent. reflexivity.
  - intros slots Hslots. split; [| split; [| split]].
    + rewrite ownProperty_populate_resolvedFields.
      simpl. rewrite Hslots. reflexivity.
    + apply length_map.
    + intros i. apply list_lookup_fmap.
    + intros i n Hslot Hsafe.
      rewrite list_lookup_fmap, Hslot. simpl. unfold position.
      now rewrite (get_number _ n Hsafe).
  - intros Hkeeps. exact (workingDocument_keeps flatten raw "eligibleSlots" Hkeeps).
Qed.

(** ** Determinism of the mapping *)



(** ** The cache *)

Lemma storeLookup_head (key : value) (l : loc) (s : list (value * loc)) :
  storeLookup key ((key, l) :: s) = Some l.
Proof. simpl. now rewrite value_eqb_refl. Qed.

(** With a key, [getOrCreate] goes through the store. *)
Lemma getOrCreate_keyed (w : world) (data constructorParams key : value) (refresh : bool) :
  getIDParams constructorParams = Normal key -> key <> VUndefined ->
  getOrCreate w data constructorParams refresh =
  match storeLookup key (store w) with
  | Some l =>
      if refresh then
        fields ← mapPlayer (statics w) data constructorParams;
        mret (l, World (<[l := fields]> (heap w)) (store w) (statics w) (S (mapperRuns w)))
      else mret (l, w)
  | None =>
      '(l, w') ← runMapper w data constructorParams;
      mret (l, World (heap w') ((key, l) :: store w') (statics w') (mapperRuns w'))
  end.
Proof.
  intros Hkey Hdefined. unfold getOrCreate. rewrite Hkey.
  destruct key; try reflexivity. contradiction.
Qed.

(** After a request with a key, the store holds the returned object under
    that key. *)
Lemma getOrCreate_stores (w w1 : world) (data constructorParams key : value)
    (refresh : bool) (l : loc) :
  getIDParams constructorParams = Normal key -> key <> VUndefined ->
  getOrCreate w data constructorParams refresh = Normal (l, w1) ->
  storeLookup key (store w1) = Some l.
Proof.
  intros Hkey Hdefined. rewrite (getOrCreate_keyed w data constructorParams key refresh Hkey Hdefined).
  destruct (storeLookup key (store w)) as [hit|] eqn:Hlookup.
  - destruct refresh.
    + destruct (mapPlayer (statics w) data constructorParams); [|discriminate].
      intros [= <- <-]. exact Hlookup.
    + intros [= <- <-]. exact Hlookup.
  - unfold runMapper.
    destruct (mapPlayer (statics w) data constructorParams); [|discriminate].
    intros [= <- <-]. apply storeLookup_head.
Qed.

(** C4: when two construction requests of a Player have constructor
    parameters with equal identity keys, the second request returns the very
    object of the first and leaves the world as it was, so the schema mapper
    does not run again; and a request that withholds any one of id, seasonId
    and scoringPeriodId is a run of the mapper that builds a new object and
    does not touch the store. *)
Theorem getOrCreate_hit_and_fresh (w : world) :
  (forall (data data' params params' key : value) (refresh : bool) (first : loc) (w1 : world),
     getIDParams params = Normal key ->
     getIDParams params' = Normal key ->
     key <> VUndefined ->
     getOrCreate w data params refresh = Normal (first, w1) ->
     getOrCreate w1 data' params' false = Normal (first, w1)
     /\ forall second w2, getOrCreate w1 data' params' false = Normal (second, w2) ->
                          second = first /\ mapperRuns w2 = mapperRuns w1)
  /\ (forall (data : value) (params : obj) (refresh : bool),
        allPresent (identityTriple params) = false ->
        getOrCreate w data (VObj params) refresh = runMapper w data (VObj params)
        /\ match runMapper w data (VObj params) with
           | Normal (l, w') =>
               heap w !! l = None
               /\ is_Some (heap w' !! l)
               /\ store w' = store w
               /\ mapperRuns w' = S (mapperRuns w)
           | Throw e => mapPlayer (statics w) data (VObj params) = Throw e
           end).
Proof.
  split.
  - intros data data' params params' key refresh first w1 Hkey Hkey' Hdefined Hfirst.
    pose proof (getOrCreate_stores w w1 data params key refresh first Hkey Hdefined Hfirst)
      as Hstored.
    assert (Hsecond : getOrCreate w1 data' params' false = Normal (first, w1)).
    { rewrite (getOrCreate_keyed w1 data' params' key false Hkey' Hdefined).
      now rewrite Hstored. }
    split; [exact Hsecond|].
    intros second w2. rewrite Hsecond. intros [= <- <-]. split; reflexivity.
  - intros data params refresh Hwithheld. split.
    + unfold getOrCreate. rewrite getIDParams_object.
      destruct (allTruthy (identityTriple params)) eqn:Htruthy; [| reflexivity].
      apply allTruthy_allPresent in Htruthy. congruence.
    + unfold runMapper.
      destruct (mapPlayer (statics w) data (VObj params)) as [fields|e]; [| reflexivity].
      simpl. repeat split.
      * apply not_elem_of_dom. apply is_fresh.
      * rewrite lookup_insert_eq. eauto.
Qed.

(** ** The constructor *)

Lemma fieldOf_writeField_eq (h : gmap loc obj) (l : loc) (k : string) (v : value) :
  is_Some (h !! l) -> fieldOf (writeField h l k v) l k = v.
Proof.
  intros [o Ho]. unfold fieldOf, writeField. rewrite Ho, lookup_insert_eq.
  simpl. now rewrite ownProperty_setProperty_eq.
Qed.

Lemma fieldOf_writeField_ne (h : gmap loc obj) (l : loc) (k k' : string) (v : value) :
  k <> k' -> fieldOf (writeField h l k v) l k' = fieldOf h l k'.
Proof.
  intros Hne. unfold fieldOf, writeField. destruct (h !! l) as [o|] eqn:Ho.
  - rewrite lookup_insert_eq. simpl. now rewrite ownProperty_setProperty_ne.
  - now rewrite Ho.
Qed.

Lemma lookup_writeField_ne (h : gmap loc obj) (l l' : loc) (k : string) (v : value) :
  l <> l' -> writeField h l k v !! l' = h !! l'.
Proof.
  intros Hne. unfold writeField. destruct (h !! l); [| reflexivity].
  now apply lookup_insert_ne.
Qed.

Lemma writeField_is_Some (h : gmap loc obj) (l l' : loc) (k : string) (v : value) :
  is_Some (h !! l') -> is_Some (writeField h l k v !! l').
Proof.
  intros Hsome. unfold writeField. destruct (h !! l) eqn:Hl; [| exact Hsome].
  destruct (decide (l = l')) as [<-|Hne].
  - rewrite lookup_insert_eq. eauto.
  - now rewrite lookup_insert_ne.
Qed.

(** C10: for every options object, and for no options at all, constructing a
    Player returns normally and leaves on the instance the seasonId and the
    scoringPeriodId of the options (undefined when not supplied); the instance
    is a new object and every object the caller holds, the options among
    them, is as it was.  The base constructor is taken to return a new
    instance without touching the caller's objects. *)
Theorem constructor_sets_season_and_period (h : gmap loc obj) (options : argument) :
  superConstructs ->
  match options with
  | Ref o => is_Some (h !! o)
  | Absent => True
  | Null => False
  end ->
  exists this h',
    constructor h options = Normal (this, h')
    /\ fieldOf h' this "seasonId" = optionValue h options "seasonId"
    /\ fieldOf h' this "scoringPeriodId" = optionValue h options "scoringPeriodId"
    /\ h !! this = None
    /\ forall l, is_Some (h !! l) -> h' !! l = h !! l.
Proof.
  intros Hsuper Hoptions. unfold constructor.
  set (start := match options with
                | Absent => let o := fresh (dom h) in (Ref o, <[o := []]> h)
                | _ => (options, h)
                end).
  assert (Hstart : exists o h0,
             start = (Ref o, h0)
             /\ is_Some (h0 !! o)
             /\ (forall k, fieldOf h0 o k = optionValue h options k)
             /\ (forall l, is_Some (h !! l) -> h0 !! l = h !! l)).
  { destruct options as [| |o]; [| contradiction |].
    - exists (fresh (dom h)), (<[fresh (dom h) := []]> h). repeat split.
      + rewrite lookup_insert_eq. eauto.
      + intros k. unfold fieldOf. now rewrite lookup_insert_eq.
      + intros l Hl. apply lookup_insert_ne. intros <-.
        apply (is_fresh (dom h)). now apply elem_of_dom.
    - exists o, h. repeat split; auto. }
  destruct Hstart as (o & h0 & -> & Ho & Hread & Hframe0).
  destruct (Hsuper h0 (Ref o)) as (this & h1 & -> & Hnew & Hthis & Hframe1).
  assert (Hne : this <> o) by (intros ->; rewrite Hnew in Ho; now destruct Ho).
  assert (Hread1 : forall k, fieldOf h1 o k = optionValue h options k).
  { intros k. rewrite <- Hread. unfold fieldOf. now rewrite (Hframe1 o Ho). }
  exists this. eexists. split; [reflexivity|].
  repeat split.
  - rewrite fieldOf_writeField_ne by discriminate.
    rewrite fieldOf_writeField_eq by exact Hthis. apply Hread1.
  - rewrite fieldOf_writeField_eq by (now apply writeField_is_Some).
    unfold fieldOf at 1. rewrite lookup_writeField_ne by exact Hne.
    apply Hread1.
  - destruct (h !! this) eqn:Hold; [| reflexivity].
    assert (Hin : is_Some (h !! this)) by eauto.
    pose proof (Hframe0 this Hin) as Hsame. rewrite Hnew in Hsame. congruence.
  - intros l Hl.
    assert (Hl0 : is_Some (h0 !! l)) by (rewrite (Hframe0 l Hl); exact Hl).
    assert (Hlne : this <> l) by (intros ->; rewrite Hnew in Hl0; now destruct Hl0).
    rewrite !lookup_writeField_ne by exact Hlne.
    rewrite (Hframe1 l Hl0). now apply Hframe0.
Qed.

(** ** More on Player.getIDParams *)

(** [getIDParams] on any argument: [null] is the one argument it throws on,
    and only an object can have a key. *)
Lemma getIDParams_cases (params : value) :
  getIDParams params =
  match params with
  | VNull => Throw TypeError
  | VObj fields =>
      Normal (if allTruthy (identityTriple fields)
              then identityKey (identityTriple fields) else VUndefined)
  | _ => Normal VUndefined
  end.
Proof. destruct params; try reflexivity. apply getIDParams_object. Qed.

(** X1: getIDParams throws exactly when its argument is null (the default
    [{}] only replaces undefined), and the error is the TypeError of the
    property read; an argument that is neither null nor an object (a number, a
    string, a boolean, an array, a date, or nothing at all) has no key. *)
Theorem getIDParams_throws_iff_null (params : value) :
  ((exists e, getIDParams params = Throw e) <-> params = VNull)
  /\ (forall e, getIDParams params = Throw e -> e = TypeError)
  /\ match params with
     | VNull | VObj _ => True
     | _ => getIDParams params = Normal VUndefined
     end.
Proof.
  rewrite getIDParams_cases. split; [| split].
  - split.
    + intros [e He]. destruct params; try discriminate. reflexivity.
    + intros ->. eauto.
  - intros e He. destruct params; try discriminate. now injection He.
  - destruct params; auto.
Qed.

(** X2: a key that getIDParams returns is an object with exactly the
    properties id, seasonId and scoringPeriodId, in this order, holding the
    argument's values, and each of the three is truthy: a key never holds
    undefined, null, 0, NaN, the empty string or false. *)
Theorem getIDParams_key_components_truthy (params key : value) :
  getIDParams params = Normal key ->
  key <> VUndefined ->
  exists id seasonId scoringPeriodId,
    key = VObj [("id", id); ("seasonId", seasonId); ("scoringPeriodId", scoringPeriodId)]
    /\ member params "id" = id
    /\ member params "seasonId" = seasonId
    /\ member params "scoringPeriodId" = scoringPeriodId
    /\ truthy id = true /\ truthy seasonId = true /\ truthy scoringPeriodId = true.
Proof.
  rewrite getIDParams_cases. intros Hkey Hdefined.
  destruct params as [| | | | | |items|fields|arg]; try discriminate;
    try (injection Hkey as <-; contradiction).
  destruct (allTruthy (identityTriple fields)) eqn:Htruthy;
    [| injection Hkey as <-; contradiction].
  injection Hkey as <-.
  unfold allTruthy, identityTriple in Htruthy.
  apply andb_prop in Htruthy as [Htruthy Hperiod].
  apply andb_prop in Htruthy as [Hid Hseason].
  eexists _, _, _. repeat split; assumption.
Qed.

(** A key is its own key. *)
Lemma getIDParams_identityKey (triple : value * value * value) :
  allTruthy triple = true -> getIDParams (identityKey triple) = Normal (identityKey triple).
Proof.
  destruct triple as [[id seasonId] scoringPeriodId]. intros Htruthy.
  unfold identityKey. rewrite getIDParams_object.
  change (identityTriple [("id", id); ("seasonId", seasonId);
                          ("scoringPeriodId", scoringPeriodId)])
    with (id, seasonId, scoringPeriodId).
  now rewrite Htruthy.
Qed.

(** X3: getIDParams is idempotent: applied to what it returned (a key, or
    undefined for no key) it returns the same again. *)
Theorem getIDParams_idempotent (params key : value) :
  getIDParams params = Normal key -> getIDParams key = Normal key.
Proof.
  rewrite getIDParams_cases. intros Hkey.
  destruct params as [| | | | | |items|fields|arg]; try discriminate;
    try (injection Hkey as <-; reflexivity).
  destruct (allTruthy (identityTriple fields)) eqn:Htruthy;
    [| injection Hkey as <-; reflexivity].
  injection Hkey as <-.
  exact (getIDParams_identityKey (identityTriple fields) Htruthy).
Qed.

(** X4: keys do not collide: two parameter objects that get the same key
    have the same id, the same seasonId and the same scoringPeriodId. *)
Theorem getIDParams_key_injective (params params' : obj) (key : value) :
  getIDParams (VObj params) = Normal key ->
  getIDParams (VObj params') = Normal key ->
  key <> VUndefined ->
  identityTriple params = identityTriple params'.
Proof.
  rewrite !getIDParams_object. intros Hkey Hkey' Hdefined.
  destruct (allTruthy (identityTriple params));
    [| injection Hkey as <-; contradiction].
  destruct (allTruthy (identityTriple params'));
    [| injection Hkey' as <-; contradiction].
  rewrite <- Hkey' in Hkey. clear Hkey' Hdefined.
  destruct (identityTriple params) as [[id seasonId] scoringPeriodId].
  destruct (identityTriple params') as [[id' seasonId'] scoringPeriodId'].
  simpl in Hkey. now injection Hkey as -> -> ->.
Qed.

(** ** More on the constructor *)

(** The constructor on an options object, once the base constructor has
    returned: two writes on the instance, each reading the options. *)
Lemma constructor_after_super (h h1 : gmap loc obj) (o this : loc) :
  super h (Ref o) = Normal (this, h1) ->
  constructor h (Ref o) =
  Normal (this,
          writeField (writeField h1 this "seasonId" (fieldOf h1 o "seasonId"))
            this "scoringPeriodId"
            (fieldOf (writeField h1 this "seasonId" (fieldOf h1 o "seasonId"))
               o "scoringPeriodId")).
Proof. intros Hsuper. unfold constructor. rewrite Hsuper. reflexivity. Qed.

Lemma dom_writeField (h : gmap loc obj) (l : loc) (k : string) (v : value) :
  dom (writeField h l k v) = dom h.
Proof.
  unfold writeField. destruct (h !! l) eqn:Hl; [| reflexivity].
  apply dom_insert_lookup_L. eauto.
Qed.

(** X5: [new Player(null)] never constructs: whatever the base constructor
    does, the constructor throws (the default [{}] does not replace null, and
    [options.seasonId] is read after [super] returns); and on an options
    object an error of the base constructor is passed on unchanged. *)
Theorem constructor_null_throws (h : gmap loc obj) :
  (exists e, constructor h Null = Throw e)
  /\ (forall this h1, super h Null = Normal (this, h1) ->
                      constructor h Null = Throw TypeError)
  /\ (forall o e, super h (Ref o) = Throw e -> constructor h (Ref o) = Throw e).
Proof.
  split; [| split].
  - unfold constructor. destruct (super h Null) as [[this h1]|e]; simpl; eauto.
  - intros this h1 Hsuper. unfold constructor. now rewrite Hsuper.
  - intros o e Hsuper. unfold constructor. now rewrite Hsuper.
Qed.

(** X6: the constructor body writes seasonId and scoringPeriodId of the
    instance and nothing else: it returns the instance the base constructor
    returned, every other property of the instance is as the base constructor
    left it, every other object is untouched, and no object is created. *)
Theorem constructor_writes_only_season_and_period (h h1 : gmap loc obj) (o this : loc) :
  super h (Ref o) = Normal (this, h1) ->
  exists h2,
    constructor h (Ref o) = Normal (this, h2)
    /\ (forall k, k <> "seasonId" -> k <> "scoringPeriodId" ->
                  fieldOf h2 this k = fieldOf h1 this k)
    /\ (forall l, l <> this -> h2 !! l = h1 !! l)
    /\ dom h2 = dom h1.
Proof.
  intros Hsuper. rewrite (constructor_after_super h h1 o this Hsuper).
  eexists. split; [reflexivity|]. split; [| split].
  - intros k Hseason Hperiod.
    rewrite fieldOf_writeField_ne by (intros Heq; now apply Hperiod).
    apply fieldOf_writeField_ne. intros Heq. now apply Hseason.
  - intros l Hl. rewrite !lookup_writeField_ne by (intros Heq; now apply Hl).
    reflexivity.
  - now rewrite !dom_writeField.
Qed.

(** X7: the constructor and getIDParams agree: when the options object has
    an identity key, the instance built from it holds the seasonId and the
    scoringPeriodId of that key, and both are truthy.  The base constructor is
    taken to return a new instance and to leave the caller's objects alone. *)
Theorem constructor_agrees_with_identity_key (h : gmap loc obj) (o : loc)
    (params : obj) (key : value) :
  superConstructs ->
  h !! o = Some params ->
  getIDParams (VObj params) = Normal key ->
  key <> VUndefined ->
  exists this h',
    constructor h (Ref o) = Normal (this, h')
    /\ fieldOf h' this "seasonId" = member key "seasonId"
    /\ fieldOf h' this "scoringPeriodId" = member key "scoringPeriodId"
    /\ truthy (fieldOf h' this "seasonId") = true
    /\ truthy (fieldOf h' this "scoringPeriodId") = true.
Proof.
  intros Hsuper Ho Hkey Hdefined.
  destruct (Hsuper h (Ref o)) as (this & h1 & Hcall & Hnew & Hthis & Hframe).
  assert (Hne : this <> o) by (intros ->; congruence).
  assert (Hoptions : h1 !! o = Some params) by (rewrite Hframe; eauto).
  rewrite getIDParams_object in Hkey.
  destruct (allTruthy (identityTriple params)) eqn:Htruthy;
    [| injection Hkey as <-; contradiction].
  injection Hkey as <-.
  unfold allTruthy, identityTriple in Htruthy.
  apply andb_prop in Htruthy as [Htruthy Hperiod].
  apply andb_prop in Htruthy as [_ Hseason].
  assert (Hs : fieldOf (writeField (writeField h1 this "seasonId" (fieldOf h1 o "seasonId"))
                          this "scoringPeriodId"
                          (fieldOf (writeField h1 this "seasonId" (fieldOf h1 o "seasonId"))
                             o "scoringPeriodId")) this "seasonId"
               = member (VObj params) "seasonId").
  { rewrite fieldOf_writeField_ne by discriminate.
    rewrite fieldOf_writeField_eq by exact Hthis.
    unfold fieldOf. now rewrite Hoptions. }
  assert (Hp : fieldOf (writeField (writeField h1 this "seasonId" (fieldOf h1 o "seasonId"))
                          this "scoringPeriodId"
                          (fieldOf (writeField h1 this "seasonId" (fieldOf h1 o "seasonId"))
                             o "scoringPeriodId")) this "scoringPeriodId"
               = member (VObj params) "scoringPeriodId").
  { rewrite fieldOf_writeField_eq by (now apply writeField_is_Some).
    unfold fieldOf. rewrite lookup_writeField_ne by exact Hne. now rewrite Hoptions. }
  rewrite (constructor_after_super h h1 o this Hcall).
  eexists _, _. split; [reflexivity|].
  rewrite Hs, Hp. repeat split; assumption.
Qed.

(** ** More on the transforms *)

(** X8: defaultPosition and eligiblePositions use the same position table
    in the same way: when the default position id stands at index i of the
    eligible slots, the mapped default position stands at index i of the
    mapped eligible positions. *)
Theorem defaultPosition_among_eligiblePositions (slots : list value) (i : nat)
    (positionId : value) (partial partial' document document' : obj)
    (constructorParams constructorParams' : value) :
  slots !! i = Some positionId ->
  exists positions position,
    eligiblePositions_manualParse (VArr slots) partial document constructorParams
      = Normal (VArr positions)
    /\ defaultPosition_manualParse positionId partial' document' constructorParams'
       = Normal position
    /\ positions !! i = Some position
    /\ length positions = length slots.
Proof.
  intros Hslot. eexists _, _. split; [reflexivity|]. split; [reflexivity|]. split.
  - rewrite list_lookup_fmap, Hslot. reflexivity.
  - apply length_map.
Qed.

(** ** More on mapping with Player.responseMap *)

Lemma setProperty_new (o : obj) (k : string) (v : value) :
  ownProperty o k = None -> setProperty o k v = o ++ [(k, v)].
Proof.
  induction o as [|[k' v'] o IH]; simpl; [reflexivity|].
  destruct (String.eqb k' k); [discriminate|].
  intros Hnone. now rewrite IH.
Qed.

Lemma fold_setUnlessAbsent_keptFields (fields acc : obj) :
  NoDup (map fst fields) ->
  (forall k, k ∈ map fst fields -> ownProperty acc k = None) ->
  fold_left (fun o kv => setUnlessAbsent o (fst kv) (snd kv)) fields acc
  = acc ++ keptFields fields.
Proof.
  revert acc. induction fields as [|[k v] fields IH]; intros acc Hnd Hacc; simpl.
  - now rewrite app_nil_r.
  - simpl in Hnd. apply NoDup_cons in Hnd as [Hnot Hnd].
    rewrite IH; [| exact Hnd |].
    + assert (Hk : ownProperty acc k = None) by (apply Hacc; left).
      destruct v; simpl; rewrite ?setProperty_new by exact Hk;
        rewrite <- ?app_assoc; reflexivity.
    + intros k' Hin. rewrite ownProperty_setUnlessAbsent_ne.
      * apply Hacc. now right.
      * intros ->. contradiction.
Qed.

(** Setting fields of distinct names on the empty object keeps the fields
    that are not absent, in the order they were set. *)
Lemma populate_keptFields (fields : obj) :
  NoDup (map fst fields) -> populate fields = keptFields fields.
Proof.
  intros Hnd. unfold populate.
  now rewrite fold_setUnlessAbsent_keptFields by (done || reflexivity).
Qed.

Lemma keptFields_sublist (fields : obj) :
  sublist (map fst (keptFields fields)) (map fst fields).
Proof.
  induction fields as [|[k v] fields IH]; simpl; [constructor|].
  destruct v; simpl; try (now apply sublist_skip); now apply sublist_cons.
Qed.

Lemma keptFields_defined (fields : obj) (k : string) :
  ownProperty (keptFields fields) k <> Some VUndefined.
Proof.
  induction fields as [|[k' v] fields IH]; simpl; [discriminate|].
  destruct v; simpl; try exact IH;
    (destruct (String.eqb k' k); [discriminate | exact IH]).
Qed.

(** X10: the object a completed mapping returns has the shape of the
    response map: its property names are a sublist of the response map's
    targets, so they come in declared order and none is outside the map; no
    name occurs twice; and no property holds undefined. *)
Theorem mapDocument_result_shape (this raw : obj) (constructorParams : value)
    (flatten : bool) :
  let document := workingDocument flatten raw in
  match mapDocument (responseMap this) (VObj raw) constructorParams flatten with
  | Normal result =>
      sublist (map fst result) (map fst (responseMap this))
      /\ wellFormed result
      /\ forall k, ownProperty result k <> Some VUndefined
  | Throw e =>
      parsePlayerStats
        (totalPoints_arguments this (member (VObj document) "stats") constructorParams)
      = Throw e
  end.
Proof.
  intros document. rewrite mapDocument_responseMap. fold document.
  destruct (parsePlayerStats _) as [totalPoints|e]; [| reflexivity].
  rewrite populate_keptFields by apply resolvedFields_NoDup.
  assert (Hsub : sublist (map fst (keptFields (resolvedFields document totalPoints)))
                   (map fst (responseMap this)))
    by exact (keptFields_sublist (resolvedFields document totalPoints)).
  split; [exact Hsub|]. split.
  - unfold wellFormed.
    exact (sublist_NoDup _ _ (resolvedFields_NoDup document totalPoints) Hsub).
  - apply keptFields_defined.
Qed.

(** X11: every direct entry of the response map is a plain copy under its
    target name: for each entry [target: 'source'], a completed mapping holds
    under target the document's value at source (also where the two names
    differ, as for locked and lineupLocked), and leaves target out when the
    document has no such value. *)
Theorem mapDocument_direct_fields (this raw : obj) (constructorParams : value)
    (flatten : bool) (target source : string) :
  (target, Direct source) ∈ responseMap this ->
  let document := workingDocument flatten raw in
  match mapDocument (responseMap this) (VObj raw) constructorParams flatten with
  | Normal result => ownProperty result target = presentValue (member (VObj document) source)
  | Throw e =>
      parsePlayerStats
        (totalPoints_arguments this (member (VObj document) "stats") constructorParams)
      = Throw e
  end.
Proof.
  intros Hentry document. rewrite mapDocument_responseMap. fold document.
  destruct (parsePlayerStats _) as [totalPoints|e]; [| reflexivity].
  rewrite ownProperty_populate_resolvedFields.
  unfold responseMap, parsed in Hentry.
  repeat (apply elem_of_cons in Hentry as [Hentry|Hentry];
          [first [discriminate Hentry | injection Hentry as -> ->; reflexivity] |]).
  now apply elem_of_nil in Hentry.
Qed.

(** X12: eligiblePositions is on every completed mapping and is an array,
    whatever the document holds under eligibleSlots: as long as the slots for
    an array, and empty for null, a number, a boolean or a date as for a
    missing value. *)
Theorem mapDocument_eligiblePositions_always_present (this raw : obj)
    (constructorParams : value) (flatten : bool) :
  let document := workingDocument flatten raw in
  match mapDocument (responseMap this) (VObj raw) constructorParams flatten with
  | Normal result =>
      exists positions,
        ownProperty result "eligiblePositions" = Some (VArr positions)
        /\ match member (VObj document) "eligibleSlots" with
           | VArr slots => length positions = length slots
           | VObj _ | VStr _ => True
           | _ => positions = []
           end
  | Throw e =>
      parsePlayerStats
        (totalPoints_arguments this (member (VObj document) "stats") constructorParams)
      = Throw e
  end.
Proof.
  intros document. rewrite mapDocument_responseMap. fold document.
  destruct (parsePlayerStats _) as [totalPoints|e]; [| reflexivity].
  eexists. split.
  - rewrite ownProperty_populate_resolvedFields. reflexivity.
  - destruct (member (VObj document) "eligibleSlots"); simpl; auto using length_map.
Qed.

(** X13: acquiredDate is on a completed mapping exactly when the
    document's acquisitionDate is truthy, and is then the Date made of it; a
    timestamp 0, an empty string or null gives no date. *)
Theorem mapDocument_acquiredDate (this raw : obj) (constructorParams : value)
    (flatten : bool) :
  let document := workingDocument flatten raw in
  let acquisitionDate := member (VObj document) "acquisitionDate" in
  match mapDocument (responseMap this) (VObj raw) constructorParams flatten with
  | Normal result =>
      ownProperty result "acquiredDate"
        = (if truthy acquisitionDate then Some (VDate acquisitionDate) else None)
      /\ (is_Some (ownProperty result "acquiredDate") <-> truthy acquisitionDate = true)
  | Throw e =>
      parsePlayerStats
        (totalPoints_arguments this (member (VObj document) "stats") constructorParams)
      = Throw e
  end.
Proof.
  intros document acquisitionDate. rewrite mapDocument_responseMap. fold document.
  destruct (parsePlayerStats _) as [totalPoints|e]; [| reflexivity].
  assert (Hdate : ownProperty (populate (resolvedFields document totalPoints)) "acquiredDate"
                  = (if truthy acquisitionDate then Some (VDate acquisitionDate) else None)).
  { rewrite ownProperty_populate_resolvedFields.
    change (ownProperty (resolvedFields document totalPoints) "acquiredDate")
      with (Some (if truthy acquisitionDate then VDate acquisitionDate else VUndefined)).
    now destruct (truthy acquisitionDate). }
  split; [exact Hdate|]. rewrite Hdate.
  destruct (truthy acquisitionDate); split; try reflexivity; eauto.
  - intros [x Hx]. discriminate.
  - discriminate.
Qed.

End Player.

(** ** The scenario, run *)

(** The spec's scenario: [{ id: 7, proTeamId: 3 }] with the team table
    [{3: 'Example Team'}].  The stat collaborator of the scenario answers with
    the season it was given: none, although the constructor parameters name
    2023. *)
Example mapPlayer_rostered :
  mapPlayer Scenario.parsePlayerStats Scenario.teams Scenario.abbreviations
    Scenario.positions Scenario.deepGet Scenario.coerce Scenario.knownContainers
    (statics Scenario.start) (VObj Scenario.rostered) (VObj Scenario.identified)
  = Normal [("id", VNum 7); ("proTeam", VStr "Example Team");
            ("proTeamAbbreviation", VStr "EX"); ("totalPoints", VArr [VUndefined]);
            ("eligiblePositions", VArr [])].
Proof. reflexivity. Qed.


(** [{ id: 7, eligibleSlots: [2, 4, 9] }]: the positions come out in order,
    an unknown slot as [undefined]. *)
Example mapPlayer_eligibleSlots :
  mapPlayer Scenario.parsePlayerStats Scenario.teams Scenario.abbreviations
    Scenario.positions Scenario.deepGet Scenario.coerce Scenario.knownContainers
    (statics Scenario.start)
    (VObj [("id", VNum 7); ("eligibleSlots", VArr [VNum 2; VNum 4; VNum 9])])
    (VObj Scenario.identified)
  = Normal [("id", VNum 7); ("totalPoints", VArr [VUndefined]);
            ("eligiblePositions", VArr [VStr "RB"; VStr "WR"; VUndefined])].
Proof. reflexivity. Qed.

(** A document that is not an object is a fatal construction error. *)
Example mapPlayer_malformed :
  mapPlayer Scenario.parsePlayerStats Scenario.teams Scenario.abbreviations
    Scenario.positions Scenario.deepGet Scenario.coerce Scenario.knownContainers
    (statics Scenario.start) (VNum 7) (VObj Scenario.identified)
  = Throw TypeError.
Proof. reflexivity. Qed.

(** [getIDParams(null)] throws; [getIDParams()] has no key. *)
Example getIDParams_null_and_default :
  getIDParams VNull = Throw TypeError /\ getIDParams VUndefined = Normal VUndefined.
Proof. split; reflexivity. Qed.

(** ** Instances of the theorems *)

Lemma getIDParams_key_iff_truthy_witness :
  getIDParams (VObj Scenario.identified)
    = Normal (VObj [("id", VNum 7); ("seasonId", VNum 2023); ("scoringPeriodId", VNum 1)])
  /\ getIDParams (VObj Scenario.withoutPeriod) = Normal VUndefined
  /\ getIDParams (VObj Scenario.identifiedAgain) = getIDParams (VObj Scenario.identified).
Proof.
  split; [| split].
  - apply (proj1 (proj1 (getIDParams_key_iff_truthy Scenario.identified))). reflexivity.
  - apply (proj1 (proj1 (proj2 (getIDParams_key_iff_truthy Scenario.withoutPeriod)))).
    reflexivity.
  - apply (proj2 (proj2 (getIDParams_key_iff_truthy Scenario.identified))). reflexivity.
Defined.

Lemma getIDParams_reads_identity_only_witness :
  getIDParams (VObj Scenario.identified) = getIDParams (VObj Scenario.identifiedAgain).
Proof. apply getIDParams_reads_identity_only; reflexivity. Defined.

(** C6 as stated fails: in [{ id: 7, jersey: 0 }] the jersey value is
    present and its numeric conversion is 0, and the transform returns
    undefined. *)
Lemma jerseyNumber_present_zero_is_left_out :
  nullish (member (VObj Scenario.jerseyZero) "jersey") = false
  /\ Lodash.toNumber Scenario.coerce (member (VObj Scenario.jerseyZero) "jersey") = VNum 0
  /\ jerseyNumber_manualParse Scenario.coerce (member (VObj Scenario.jerseyZero) "jersey")
       [] Scenario.jerseyZero (VObj Scenario.identified)
     = Normal VUndefined.
Proof. repeat split. Qed.

Lemma jerseyNumber_manualParse_truthy_witness :
  jerseyNumber_manualParse Scenario.coerce (VStr "12") [] Scenario.jerseyTwelve
    (VObj Scenario.identified) = Normal (VNum 12)
  /\ jerseyNumber_manualParse Scenario.coerce VUndefined [] Scenario.rostered
       (VObj Scenario.identified) = Normal VUndefined.
Proof.
  split.
  - exact (proj1 (jerseyNumber_manualParse_truthy Scenario.coerce Scenario.jerseyTwelve []
                    (VObj Scenario.identified))).
  - apply (proj2 (jerseyNumber_manualParse_truthy Scenario.coerce Scenario.rostered []
                    (VObj Scenario.identified))).
    reflexivity.
Defined.

Lemma flatten_then_map_reads_nested_witness :
  mapFields [("percentOwned", Direct "percentOwned")]
    (mergeContainer Scenario.nested Scenario.nested "ownership") (VObj Scenario.identified) []
    = Normal [("percentOwned", VNum 42)]
  /\ member (VObj (workingDocument Scenario.knownContainers flattenResponse Scenario.nested))
       "percentOwned" = VNum 42.
Proof.
  assert (Hwf : wellFormed [("percentOwned", VNum 42)]) by apply NoDup_singleton.
  destruct (flatten_then_map_reads_nested Scenario.knownContainers Scenario.nested
              [("percentOwned", VNum 42)] [] "ownership" "percentOwned" "percentOwned"
              (VNum 42) (VObj Scenario.identified) eq_refl Hwf eq_refl)
    as (_ & _ & _ & _ & Hmapped & Hflattened).
  split; [exact Hmapped|].
  apply (Hflattened [] []); [reflexivity|].
  intros c others Hin. inversion Hin.
Defined.

Lemma getOrCreate_hit_and_fresh_witness :
  exists first w1,
    getOrCreate Scenario.parsePlayerStats Scenario.teams Scenario.abbreviations
      Scenario.positions Scenario.deepGet Scenario.coerce Scenario.knownContainers
      Scenario.start (VObj Scenario.rostered) (VObj Scenario.identified) false
    = Normal (first, w1)
    /\ mapperRuns w1 = 1
    /\ getOrCreate Scenario.parsePlayerStats Scenario.teams Scenario.abbreviations
         Scenario.positions Scenario.deepGet Scenario.coerce Scenario.knownContainers
         w1 (VObj Scenario.jerseyZero) (VObj Scenario.identifiedAgain) false
       = Normal (first, w1).
Proof.
  eexists _, _. split; [reflexivity|]. split; [reflexivity|].
  apply (proj1 (getOrCreate_hit_and_fresh Scenario.parsePlayerStats Scenario.teams
                  Scenario.abbreviations Scenario.positions Scenario.deepGet
                  Scenario.coerce Scenario.knownContainers Scenario.start)
           (VObj Scenario.rostered) (VObj Scenario.jerseyZero)
           (VObj Scenario.identified) (VObj Scenario.identifiedAgain)
           (identityKey (identityTriple Scenario.identified)) false).
  - reflexivity.
  - reflexivity.
  - discriminate.
  - reflexivity.
Defined.

Lemma Scenario_super_constructs : superConstructs Scenario.super.
Proof.
  intros h options. exists (fresh (dom h)), (<[fresh (dom h) := []]> h).
  repeat split.
  - apply not_elem_of_dom, is_fresh.
  - rewrite lookup_insert_eq. eauto.
  - intros l Hl. apply lookup_insert_ne. intros <-.
    apply (is_fresh (dom h)). now apply elem_of_dom.
Qed.

Lemma constructor_sets_season_and_period_witness :
  exists this h',
    constructor Scenario.super {[1%positive := Scenario.identified]} (Ref 1%positive)
      = Normal (this, h')
    /\ fieldOf h' this "seasonId" = VNum 2023
    /\ fieldOf h' this "scoringPeriodId" = VNum 1
    /\ h' !! 1%positive = Some Scenario.identified.
Proof.
  assert (Hoptions : is_Some (({[1%positive := Scenario.identified]} : gmap loc obj)
                                !! 1%positive))
    by (rewrite lookup_singleton_eq; eauto).
  destruct (constructor_sets_season_and_period Scenario.super
              {[1%positive := Scenario.identified]} (Ref 1%positive)
              Scenario_super_constructs Hoptions)
    as (this & h' & Hnew & Hseason & Hperiod & _ & Hframe).
  exists this, h'. split; [exact Hnew|]. split; [exact Hseason|]. split; [exact Hperiod|].
  rewrite (Hframe 1%positive Hoptions). apply lookup_singleton_eq.
Defined.

(** Passing [null] for the options is a TypeError, once the base constructor
    has returned. *)
Example constructor_null :
  constructor Scenario.super ∅ Null = Throw TypeError.
Proof. reflexivity. Qed.

(** ** Instances of the further theorems *)

Lemma getIDParams_key_components_truthy_witness :
  exists id seasonId scoringPeriodId,
    VObj Scenario.identified
      = VObj [("id", id); ("seasonId", seasonId); ("scoringPeriodId", scoringPeriodId)]
    /\ member (VObj Scenario.identifiedAgain) "id" = id
    /\ member (VObj Scenario.identifiedAgain) "seasonId" = seasonId
    /\ member (VObj Scenario.identifiedAgain) "scoringPeriodId" = scoringPeriodId
    /\ truthy id = true /\ truthy seasonId = true /\ truthy scoringPeriodId = true.
Proof.
  apply (getIDParams_key_components_truthy (VObj Scenario.identifiedAgain)
           (VObj Scenario.identified)).
  - reflexivity.
  - discriminate.
Defined.

Lemma getIDParams_idempotent_witness :
  getIDParams (VObj Scenario.identified) = Normal (VObj Scenario.identified).
Proof.
  apply (getIDParams_idempotent (VObj Scenario.identifiedAgain)). reflexivity.
Defined.

Lemma getIDParams_key_injective_witness :
  identityTriple Scenario.identified = identityTriple Scenario.identifiedAgain.
Proof.
  apply (getIDParams_key_injective Scenario.identified Scenario.identifiedAgain
           (VObj Scenario.identified)).
  - reflexivity.
  - reflexivity.
  - discriminate.
Defined.

Lemma constructor_writes_only_season_and_period_witness :
  exists h2,
    constructor Scenario.super {[1%positive := Scenario.identifiedAgain]} (Ref 1%positive)
      = Normal (2%positive, h2)
    /\ (forall k, k <> "seasonId" -> k <> "scoringPeriodId" ->
                  fieldOf h2 2%positive k
                  = fieldOf (<[2%positive := []]> {[1%positive := Scenario.identifiedAgain]})
                      2%positive k)
    /\ (forall l, l <> 2%positive ->
                  h2 !! l
                  = (<[2%positive := []]> {[1%positive := Scenario.identifiedAgain]}
                      : gmap loc obj) !! l)
    /\ dom h2 = dom (<[2%positive := []]> {[1%positive := Scenario.identifiedAgain]}
                      : gmap loc obj).
Proof.
  apply (constructor_writes_only_season_and_period Scenario.super
           {[1%positive := Scenario.identifiedAgain]}
           (<[2%positive := []]> {[1%positive := Scenario.identifiedAgain]})
           1%positive 2%positive).
  vm_compute. reflexivity.
Defined.

Lemma constructor_agrees_with_identity_key_witness :
  exists this h',
    constructor Scenario.super {[1%positive := Scenario.identifiedAgain]} (Ref 1%positive)
      = Normal (this, h')
    /\ fieldOf h' this "seasonId" = VNum 2023
    /\ fieldOf h' this "scoringPeriodId" = VNum 1
    /\ truthy (fieldOf h' this "seasonId") = true
    /\ truthy (fieldOf h' this "scoringPeriodId") = true.
Proof.
  apply (constructor_agrees_with_identity_key Scenario.super
           {[1%positive := Scenario.identifiedAgain]} 1%positive
           Scenario.identifiedAgain (VObj Scenario.identified)
           Scenario_super_constructs).
  - apply lookup_singleton_eq.
  - reflexivity.
  - discriminate.
Defined.

Lemma defaultPosition_among_eligiblePositions_witness :
  exists positions position,
    eligiblePositions_manualParse Scenario.positions Scenario.deepGet
      (VArr [VNum 2; VNum 4]) [] Scenario.rostered (VObj Scenario.identified)
      = Normal (VArr positions)
    /\ defaultPosition_manualParse Scenario.positions Scenario.deepGet
         (VNum 4) [] Scenario.rostered (VObj Scenario.identified)
       = Normal position
    /\ positions !! 1 = Some position
    /\ length positions = length [VNum 2; VNum 4].
Proof.
  apply (defaultPosition_among_eligiblePositions Scenario.positions Scenario.deepGet
           [VNum 2; VNum 4] 1 (VNum 4)).
  reflexivity.
Defined.

Lemma mapDocument_direct_fields_witness :
  match mapDocument Scenario.knownContainers
          (responseMap Scenario.parsePlayerStats Scenario.teams Scenario.abbreviations
             Scenario.positions Scenario.deepGet Scenario.coerce (statics Scenario.start))
          (VObj [("id", VNum 7); ("lineupLocked", VBool true)])
          (VObj Scenario.identified) false
  with
  | Normal result => ownProperty result "locked" = Some (VBool true)
  | Throw e => False
  end.
Proof.
  assert (Hentry : ("locked", Direct "lineupLocked")
                   ∈ responseMap Scenario.parsePlayerStats Scenario.teams
                       Scenario.abbreviations Scenario.positions Scenario.deepGet
                       Scenario.coerce (statics Scenario.start))
    by (unfold responseMap; do 12 apply list_elem_of_further; apply list_elem_of_here).
  pose proof (mapDocument_direct_fields Scenario.parsePlayerStats Scenario.teams
                Scenario.abbreviations Scenario.positions Scenario.deepGet
                Scenario.coerce Scenario.knownContainers (statics Scenario.start)
                [("id", VNum 7); ("lineupLocked", VBool true)] (VObj Scenario.identified)
                false "locked" "lineupLocked" Hentry) as Hcopy.
  exact Hcopy.
Defined.

(** ** Flatten mode and the class object, run *)


(** C8 as stated fails: the same raw document has no eligibleSlots of its
    own, and its mapped eligiblePositions is ['RB'], not the empty list. *)
Lemma mapPlayer_nested_eligibleSlots_are_mapped :
  ownProperty Scenario.shadowed "eligibleSlots" = None
  /\ exists result,
      mapPlayer Scenario.parsePlayerStats Scenario.teams Scenario.abbreviations
        Scenario.positions Scenario.deepGet Scenario.coerce Scenario.knownContainers
        (statics Scenario.start) (VObj Scenario.shadowed) (VObj Scenario.identified)
      = Normal result
      /\ ownProperty result "eligiblePositions" = Some (VArr [VStr "RB"]).
Proof. split; [reflexivity|]. eexists. split; reflexivity. Qed.


Lemma mapDocument_eligiblePositions_flattened_witness :
  exists result,
    mapPlayer Scenario.parsePlayerStats Scenario.teams Scenario.abbreviations
      Scenario.positions Scenario.deepGet Scenario.coerce Scenario.knownContainers
      (statics Scenario.start)
      (VObj [("id", VNum 7); ("eligibleSlots", VArr [VNum 2; VNum 4])])
      (VObj Scenario.identified)
    = Normal result
    /\ ownProperty result "eligiblePositions" = Some (VArr [VStr "RB"; VStr "WR"]).
Proof.
  pose proof (mapDocument_eligiblePositions_flattened Scenario.parsePlayerStats
                Scenario.teams Scenario.abbreviations Scenario.positions Scenario.deepGet
                Scenario.coerce Scenario.knownContainers (statics Scenario.start)
                [("id", VNum 7); ("eligibleSlots", VArr [VNum 2; VNum 4])]
                (VObj Scenario.identified) flattenResponse) as Hmapped.
  cbv zeta in Hmapped.
  destruct (mapDocument Scenario.knownContainers
              (responseMap Scenario.parsePlayerStats Scenario.teams Scenario.abbreviations
                 Scenario.positions Scenario.deepGet Scenario.coerce
                 (statics Scenario.start))
              (VObj [("id", VNum 7); ("eligibleSlots", VArr [VNum 2; VNum 4])])
              (VObj Scenario.identified) flattenResponse)
    as [result|e] eqn:Hmap; [| discriminate Hmapped].
  destruct Hmapped as (_ & Hslots & _).
  exists result. split; [exact Hmap|].
  exact (proj1 (Hslots [VNum 2; VNum 4] eq_refl)).
Defined.

(** The total points change with the class object's seasonId, the document
    and the constructor parameters being the same. *)
Example mapPlayer_depends_on_class_season :
  mapPlayer Scenario.parsePlayerStats Scenario.teams Scenario.abbreviations
    Scenario.positions Scenario.deepGet Scenario.coerce Scenario.knownContainers
    [("seasonId", VNum 2024)] (VObj Scenario.rostered) (VObj Scenario.identified)
  <> mapPlayer Scenario.parsePlayerStats Scenario.teams Scenario.abbreviations
       Scenario.positions Scenario.deepGet Scenario.coerce Scenario.knownContainers
       (statics Scenario.start) (VObj Scenario.rostered) (VObj Scenario.identified).
Proof. discriminate. Qed.

